(** * Verification of the BufPay Node.js SDK (src/bufpay.js)

    A shallow embedding of the [BufPay] class (signing, payment creation,
    payment query, notification verification) and of the Express route
    built by [createBufPayMiddleware]. *)

From Stdlib Require Import ZArith List String Ascii Bool Lia.
From Stdlib Require Import Numbers.DecimalString.
Import ListNotations.
Open Scope string_scope.
Set Warnings "-register-all".

(** ** JavaScript values

    The values that reach the SDK: the results of [JSON.parse] (webhook
    bodies) and the plain objects callers pass.  Numbers are modelled by
    their integer value, for magnitudes below 10^21 (where [String()]
    prints all the digits rather than an exponent form); strings are sequences of UTF-16 code units in the
    Latin-1 range, one [ascii] per code unit. *)

Inductive jsval : Type :=
| JUndefined
| JNull
| JBool (b : bool)
| JNum (n : Z)
| JStr (s : string)
| JArr (elems : list jsval)
| JObj (props : list (string * jsval)).

(** Errors thrown by the code ([TypeError] from the engine, [Error] from
    [throw new Error(...)]). *)
Inductive js_error : Type :=
| TypeError (message : string)
| Error (message : string).

Definition error_message (e : js_error) : string :=
  match e with TypeError m => m | Error m => m end.

(** A computation that returns a value or throws. *)
Inductive js_result (A : Type) : Type :=
| Return (a : A)
| Throw (e : js_error).
Arguments Return {A} a.
Arguments Throw {A} e.

Definition res_bind {A B} (r : js_result A) (f : A -> js_result B) : js_result B :=
  match r with Return a => f a | Throw e => Throw e end.

Notation "x <-? r ;; k" := (res_bind r (fun x => k))
  (at level 61, r at next level, right associativity).

(** Truthiness: [!v] is [negb (truthy v)]. *)
Definition truthy (v : jsval) : bool :=
  match v with
  | JUndefined | JNull => false
  | JBool b => b
  | JNum n => negb (Z.eqb n 0)
  | JStr s => negb (String.eqb s "")
  | JArr _ | JObj _ => true
  end.

(** Own-property lookup in an object literal; properties that are absent
    (also on [Object.prototype]) read as [undefined]. *)
Fixpoint prop_lookup (k : string) (ps : list (string * jsval)) : jsval :=
  match ps with
  | [] => JUndefined
  | (k', v) :: ps' => if String.eqb k k' then v else prop_lookup k ps'
  end.

Fixpoint has_own (k : string) (ps : list (string * jsval)) : bool :=
  match ps with
  | [] => false
  | (k', _) :: ps' => String.eqb k k' || has_own k ps'
  end.

(** [obj.k] for a value that is not [null] or [undefined]: primitives and
    arrays have none of the properties this program reads. *)
Definition get_prop (v : jsval) (k : string) : jsval :=
  match v with
  | JObj ps => prop_lookup k ps
  | _ => JUndefined
  end.

Definition Z_to_string (n : Z) : string :=
  NilEmpty.string_of_int (Z.to_int n).

Definition cannot_convert : js_error :=
  TypeError "Cannot convert object to primitive value".

(** [String(v)] (the abstract operation ToString).  For an object,
    ToPrimitive with hint string calls [toString] and then [valueOf]; a
    JSON object never holds a function, so an own [toString] key shadows
    [Object.prototype.toString] with a non-callable value, and
    [Object.prototype.valueOf] returns the object itself: a TypeError.
    Arrays use [Array.prototype.join] with ",", where [null] and
    [undefined] elements print as "". *)
Fixpoint to_str (v : jsval) : js_result string :=
  match v with
  | JUndefined => Return "undefined"
  | JNull => Return "null"
  | JBool b => Return (if b then "true" else "false")
  | JNum n => Return (Z_to_string n)
  | JStr s => Return s
  | JArr vs =>
      (fix join (vs : list jsval) : js_result string :=
         match vs with
         | [] => Return ""
         | v :: vs' =>
             s <-? (match v with
                    | JUndefined | JNull => Return ""
                    | _ => to_str v
                    end) ;;
             match vs' with
             | [] => Return s
             | _ => rest <-? join vs' ;; Return (s ++ "," ++ rest)
             end
         end) vs
  | JObj ps => if has_own "toString" ps then Throw cannot_convert
               else Return "[object Object]"
  end.

(** [params.map(param => String(param))]: throws at the first failure. *)
Fixpoint map_to_str (vs : list jsval) : js_result (list string) :=
  match vs with
  | [] => Return []
  | v :: vs' => s <-? to_str v ;; ss <-? map_to_str vs' ;; Return (s :: ss)
  end.

(** [arr.join('')] *)
Definition join_empty (ss : list string) : string := String.concat "" ss.

(** ** The MD5 digest ([crypto.createHash('md5')], RFC 1321)

    Bytes and 32-bit words are [Z] values; every addition is reduced
    modulo 2^32 as the 32-bit registers of the algorithm do. *)

Module MD5.

Definition mask32 (x : Z) : Z := Z.land x (Z.ones 32).

Definition add32 (x y : Z) : Z := mask32 (x + y).

Definition not32 (x : Z) : Z := Z.lxor x (Z.ones 32).

Definition rotl32 (x : Z) (c : Z) : Z :=
  mask32 (Z.lor (Z.shiftl x c) (Z.shiftr (mask32 x) (32 - c))).

(** K[i] = floor(|sin(i + 1)| * 2^32) *)
Definition K : list Z :=
  [0xd76aa478; 0xe8c7b756; 0x242070db; 0xc1bdceee;
   0xf57c0faf; 0x4787c62a; 0xa8304613; 0xfd469501;
   0x698098d8; 0x8b44f7af; 0xffff5bb1; 0x895cd7be;
   0x6b901122; 0xfd987193; 0xa679438e; 0x49b40821;
   0xf61e2562; 0xc040b340; 0x265e5a51; 0xe9b6c7aa;
   0xd62f105d; 0x02441453; 0xd8a1e681; 0xe7d3fbc8;
   0x21e1cde6; 0xc33707d6; 0xf4d50d87; 0x455a14ed;
   0xa9e3e905; 0xfcefa3f8; 0x676f02d9; 0x8d2a4c8a;
   0xfffa3942; 0x8771f681; 0x6d9d6122; 0xfde5380c;
   0xa4beea44; 0x4bdecfa9; 0xf6bb4b60; 0xbebfbc70;
   0x289b7ec6; 0xeaa127fa; 0xd4ef3085; 0x04881d05;
   0xd9d4d039; 0xe6db99e5; 0x1fa27cf8; 0xc4ac5665;
   0xf4292244; 0x432aff97; 0xab9423a7; 0xfc93a039;
   0x655b59c3; 0x8f0ccc92; 0xffeff47d; 0x85845dd1;
   0x6fa87e4f; 0xfe2ce6e0; 0xa3014314; 0x4e0811a1;
   0xf7537e82; 0xbd3af235; 0x2ad7d2bb; 0xeb86d391]%Z.

(** Per-round shift amounts. *)
Definition R : list Z :=
  [7; 12; 17; 22; 7; 12; 17; 22; 7; 12; 17; 22; 7; 12; 17; 22;
   5;  9; 14; 20; 5;  9; 14; 20; 5;  9; 14; 20; 5;  9; 14; 20;
   4; 11; 16; 23; 4; 11; 16; 23; 4; 11; 16; 23; 4; 11; 16; 23;
   6; 10; 15; 21; 6; 10; 15; 21; 6; 10; 15; 21; 6; 10; 15; 21]%Z.

Record state := mk_state { sa : Z; sb : Z; sc : Z; sd : Z }.

Definition init : state :=
  mk_state 0x67452301 0xefcdab89 0x98badcfe 0x10325476.

(** Little-endian 32-bit word from four bytes. *)
Definition word_of_bytes (b0 b1 b2 b3 : Z) : Z :=
  Z.lor b0 (Z.lor (Z.shiftl b1 8) (Z.lor (Z.shiftl b2 16) (Z.shiftl b3 24))).

Fixpoint words_of_block (bs : list Z) : list Z :=
  match bs with
  | b0 :: b1 :: b2 :: b3 :: rest => word_of_bytes b0 b1 b2 b3 :: words_of_block rest
  | _ => []
  end.

Definition bytes_of_word (w : Z) : list Z :=
  [Z.land w 255; Z.land (Z.shiftr w 8) 255;
   Z.land (Z.shiftr w 16) 255; Z.land (Z.shiftr w 24) 255].

(** One of the 64 operations of the compression function. *)
Definition step (M : list Z) (st : state) (i : nat) : state :=
  let '(mk_state a b c d) := st in
  let '(f, g) :=
    if (i <? 16)%nat then (Z.lor (Z.land b c) (Z.land (not32 b) d), i)
    else if (i <? 32)%nat then (Z.lor (Z.land d b) (Z.land (not32 d) c), (5 * i + 1) mod 16)%nat
    else if (i <? 48)%nat then (Z.lxor b (Z.lxor c d), (3 * i + 5) mod 16)%nat
    else (Z.lxor c (Z.lor b (not32 d)), (7 * i) mod 16)%nat in
  let f' := add32 (add32 (add32 f a) (nth i K 0%Z)) (nth g M 0%Z) in
  mk_state d (add32 b (rotl32 f' (nth i R 0%Z))) b c.

Definition compress (st : state) (block : list Z) : state :=
  let M := words_of_block block in
  let st' := fold_left (step M) (seq 0 64) st in
  mk_state (add32 (sa st) (sa st')) (add32 (sb st) (sb st'))
           (add32 (sc st) (sc st')) (add32 (sd st) (sd st')).

(** Padding: 0x80, zeros up to 56 mod 64, then the bit length as a
    64-bit little-endian integer. *)
Definition pad (msg : list Z) : list Z :=
  let len := List.length msg in
  let zeros := ((119 - len mod 64) mod 64)%nat in
  let bitlen := (Z.of_nat len * 8)%Z in
  msg ++ [0x80%Z] ++ repeat 0%Z zeros ++
    map (fun k => Z.land (Z.shiftr bitlen (8 * Z.of_nat k)) 255) (seq 0 8).

Fixpoint blocks (fuel : nat) (bs : list Z) : list (list Z) :=
  match fuel with
  | O => []
  | S fuel' =>
      match bs with
      | [] => []
      | _ => firstn 64 bs :: blocks fuel' (skipn 64 bs)
      end
  end.

Definition digest (msg : list Z) : list Z :=
  let padded := pad msg in
  let st := fold_left compress (blocks (List.length padded) padded) init in
  bytes_of_word (sa st) ++ bytes_of_word (sb st) ++
  bytes_of_word (sc st) ++ bytes_of_word (sd st).

End MD5.

(** [.update(s, 'utf8')]: the UTF-8 encoding of the code units. *)
Definition utf8_encode (s : string) : list Z :=
  flat_map (fun c =>
              let n := Z.of_nat (nat_of_ascii c) in
              if (n <? 128)%Z then [n]
              else [Z.lor 0xC0 (Z.shiftr n 6); Z.lor 0x80 (Z.land n 63)])
           (list_ascii_of_string s).

(** [.digest('hex')]: two lowercase hexadecimal digits per byte. *)
Definition hex_digit (n : Z) : ascii :=
  match String.get (Z.to_nat (Z.land n 15)) "0123456789abcdef" with
  | Some c => c
  | None => "0"%char
  end.

Fixpoint hex_of_bytes (bs : list Z) : string :=
  match bs with
  | [] => ""
  | b :: bs' => String (hex_digit (Z.shiftr b 4)) (String (hex_digit b) (hex_of_bytes bs'))
  end.

(** [String.prototype.toUpperCase] / [toLowerCase] on ASCII letters. *)
Definition ascii_upper (c : ascii) : ascii :=
  let n := nat_of_ascii c in
  if (97 <=? n)%nat && (n <=? 122)%nat then ascii_of_nat (n - 32) else c.

Definition ascii_lower (c : ascii) : ascii :=
  let n := nat_of_ascii c in
  if (65 <=? n)%nat && (n <=? 90)%nat then ascii_of_nat (n + 32) else c.

Fixpoint to_upper (s : string) : string :=
  match s with
  | EmptyString => EmptyString
  | String c s' => String (ascii_upper c) (to_upper s')
  end.

Fixpoint to_lower (s : string) : string :=
  match s with
  | EmptyString => EmptyString
  | String c s' => String (ascii_lower c) (to_lower s')
  end.

Definition md5_hex_upper (s : string) : string :=
  to_upper (hex_of_bytes (MD5.digest (utf8_encode s))).

(** ** The [BufPay] class *)

Record BufPay := mkBufPay {
  appId : jsval;
  appSecret : jsval;
  baseUrl : string
}.

(** [new BufPay(appId, appSecret)] *)
Definition new_BufPay (id secret : jsval) : BufPay :=
  mkBufPay id secret "https://bufpay.com/api".

(** [param !== undefined && param !== null] *)
Definition is_present (v : jsval) : bool :=
  match v with JUndefined | JNull => false | _ => true end.

(** [#createSignature(...params)] *)
Definition createSignature (params : list jsval) : js_result string :=
  strs <-? map_to_str (filter is_present params) ;;
  let concatenated := join_empty strs in
  Return (to_upper (hex_of_bytes (MD5.digest (utf8_encode concatenated)))).

(** [sign === expectedSignature] with [expectedSignature] a string. *)
Definition strict_eq_str (v : jsval) (s : string) : bool :=
  match v with JStr t => String.eqb t s | _ => false end.

(** [const { aoid, ... } = params]: destructuring [null] or [undefined]
    throws. *)
Definition destructure_error : js_error :=
  TypeError "Cannot destructure property of null or undefined".

(** [verifyNotification(params)] *)
Definition verifyNotification (self : BufPay) (params : jsval) : js_result bool :=
  match params with
  | JUndefined | JNull => Throw destructure_error
  | _ =>
    let aoid := get_prop params "aoid" in
    let order_id := get_prop params "order_id" in
    let order_uid := get_prop params "order_uid" in
    let price := get_prop params "price" in
    let pay_price := get_prop params "pay_price" in
    let sign := get_prop params "sign" in
    if negb (truthy aoid) || negb (truthy order_id) || negb (truthy order_uid)
       || negb (truthy price) || negb (truthy pay_price) || negb (truthy sign)
    then Return false
    else
      expectedSignature <-?
        createSignature [aoid; order_id; order_uid; price; pay_price; appSecret self] ;;
      Return (strict_eq_str sign expectedSignature)
  end.

(** ** Network effects

    [axios] is the environment: a function from the request issued to its
    outcome.  A computation of the client threads the log of the requests
    it has issued, so that the number of network calls can be observed. *)

Inductive http_method := GET | POST.

Record http_request := mk_request {
  req_method : http_method;
  req_url : string;
  (* the pairs of the [URLSearchParams] body, in order *)
  req_form : list (string * string)
}.

Inductive net_outcome :=
| NetOk (data : jsval)
| NetErr (message : string).

Definition M (A : Type) : Type :=
  list http_request -> js_result A * list http_request.

Definition ret {A} (a : A) : M A := fun log => (Return a, log).
Definition throw {A} (e : js_error) : M A := fun log => (Throw e, log).
Definition lift {A} (r : js_result A) : M A := fun log => (r, log).
Definition bind {A B} (m : M A) (f : A -> M B) : M B :=
  fun log => match m log with
             | (Return a, log') => f a log'
             | (Throw e, log') => (Throw e, log')
             end.
(** [try { m } catch (error) { h(error) }] *)
Definition try_catch {A} (m : M A) (h : js_error -> M A) : M A :=
  fun log => match m log with
             | (Return a, log') => (Return a, log')
             | (Throw e, log') => h e log'
             end.

Notation "x <- m ;; k" := (bind m (fun x => k))
  (at level 61, m at next level, right associativity).

Section Client.

Variable axios : http_request -> net_outcome.

(** [await axios.post(...)] / [await axios.get(...)]: the request is
    issued (logged); a transport or non-2xx failure rejects. *)
Definition send (r : http_request) : M jsval :=
  fun log => (match axios r with
              | NetOk data => Return data
              | NetErr msg => Throw (Error msg)
              end, (log ++ [r])%list).

(** [{ returnUrl = '' }]: a destructuring default applies to [undefined]. *)
Definition default_empty (v : jsval) : jsval :=
  match v with JUndefined => JStr "" | _ => v end.

(** [new URLSearchParams({...})]: each value converted with ToString. *)
Fixpoint form_of (fields : list (string * jsval)) : js_result (list (string * string)) :=
  match fields with
  | [] => Return []
  | (k, v) :: fs => s <-? to_str v ;; rest <-? form_of fs ;; Return ((k, s) :: rest)
  end.

(** [async createPayment({...})] *)
Definition createPayment (self : BufPay) (args : jsval) : M jsval :=
  match args with
  | JUndefined | JNull => throw destructure_error
  | _ =>
    let name := get_prop args "name" in
    let payType := get_prop args "payType" in
    let price := get_prop args "price" in
    let orderId := get_prop args "orderId" in
    let orderUid := get_prop args "orderUid" in
    let notifyUrl := get_prop args "notifyUrl" in
    let returnUrl := default_empty (get_prop args "returnUrl") in
    let feedbackUrl := default_empty (get_prop args "feedbackUrl") in
    if negb (truthy name) || negb (truthy payType) || negb (truthy price)
       || negb (truthy orderId) || negb (truthy orderUid) || negb (truthy notifyUrl)
    then throw (Error "Missing required payment parameters")
    else
      signature <- lift (createSignature
                           [name; payType; price; orderId; orderUid; notifyUrl;
                            returnUrl; feedbackUrl; appSecret self]) ;;
      formData <- lift (form_of [("name", name); ("pay_type", payType);
                                 ("price", price); ("order_id", orderId);
                                 ("order_uid", orderUid); ("notify_url", notifyUrl);
                                 ("return_url", returnUrl); ("feedback_url", feedbackUrl);
                                 ("sign", JStr signature)]) ;;
      try_catch
        (id <- lift (to_str (appId self)) ;;
         send (mk_request POST (baseUrl self ++ "/pay/" ++ id ++ "?format=json") formData))
        (fun error => throw (Error ("Payment creation failed: " ++ error_message error)))
  end.

(** [async queryPayment(aoid)] *)
Definition queryPayment (self : BufPay) (aoid : jsval) : M jsval :=
  if negb (truthy aoid) then throw (Error "AOID is required")
  else
    try_catch
      (s <- lift (to_str aoid) ;;
       send (mk_request GET (baseUrl self ++ "/query/" ++ s) []))
      (fun error => throw (Error ("Payment query failed: " ++ error_message error))).

End Client.

(** ** [createBufPayMiddleware(bufpay, onPaymentSuccess)]

    The handler of [router.post('/bufpay/notify', express.json(), ...)]
    applied to the parsed body.  The callback is [None] when
    [typeof onPaymentSuccess !== 'function']; its calls are recorded, and
    its result may be a throw, which the handler does not catch. *)

Inductive handler_outcome :=
| Respond (status : Z) (body : string)
| HandlerThrow (e : js_error).

Definition notify_handler (bufpay : BufPay)
    (onPaymentSuccess : option (jsval -> js_result jsval)) (body : jsval)
    : handler_outcome * list jsval :=
  match verifyNotification bufpay body with
  | Throw e => (HandlerThrow e, [])
  | Return false => (Respond 400 "Invalid signature", [])
  | Return true =>
      match onPaymentSuccess with
      | None => (Respond 200 "OK", [])
      | Some f =>
          match f body with
          | Return _ => (Respond 200 "OK", [body])
          | Throw e => (HandlerThrow e, [body])
          end
      end
  end.

(** ** Notification payloads and helpers for the statements *)

(** The JSON object [{aoid, order_id, order_uid, price, pay_price, sign}]. *)
Definition notification (aoid order_id order_uid price pay_price sign : jsval) : jsval :=
  JObj [("aoid", aoid); ("order_id", order_id); ("order_uid", order_uid);
        ("price", price); ("pay_price", pay_price); ("sign", sign)].

Definition notification_fields : list string :=
  ["aoid"; "order_id"; "order_uid"; "price"; "pay_price"; "sign"].

Definition payment_fields : list string :=
  ["name"; "payType"; "price"; "orderId"; "orderUid"; "notifyUrl"].

Fixpoint all_chars (p : ascii -> bool) (s : string) : bool :=
  match s with
  | EmptyString => true
  | String c s' => p c && all_chars p s'
  end.

Definition is_digit (c : ascii) : bool :=
  let n := nat_of_ascii c in (48 <=? n)%nat && (n <=? 57)%nat.

Definition is_upper_hex (c : ascii) : bool :=
  let n := nat_of_ascii c in
  is_digit c || ((65 <=? n)%nat && (n <=? 70)%nat).

Definition is_primitive (v : jsval) : bool :=
  match v with JArr _ | JObj _ => false | _ => true end.

Definition demo_client : BufPay := new_BufPay (JStr "app") (JStr "s3cr3t").

(** A [createPayment] request with a return URL and no feedback URL. *)
Definition demo_payment : jsval :=
  JObj [("name", JStr "Test"); ("payType", JStr "alipay"); ("price", JStr "100.00");
        ("orderId", JStr "order123"); ("orderUid", JStr "user123");
        ("notifyUrl", JStr "https://x.com/n"); ("returnUrl", JStr "https://x.com/ok")].

(** A webhook body carrying the right signature for [demo_client]. *)
Definition demo_body : jsval :=
  notification (JStr "A1") (JStr "O1") (JStr "U1") (JStr "10.00") (JStr "9.50")
    (JStr "74B9C32E2193536FABA89038613BA834").

(** ** Lemmas on the signing function *)

Lemma filter_present_strs (ss : list string) :
  filter is_present (map JStr ss) = map JStr ss.
Proof. induction ss as [|s ss IH]; simpl; [reflexivity | now rewrite IH]. Qed.

Lemma map_to_str_strs (ss : list string) :
  map_to_str (map JStr ss) = Return ss.
Proof. induction ss as [|s ss IH]; simpl; [reflexivity | now rewrite IH]. Qed.

Lemma createSignature_strs (ss : list string) :
  createSignature (map JStr ss) = Return (md5_hex_upper (String.concat "" ss)).
Proof.
  unfold createSignature. rewrite filter_present_strs, map_to_str_strs. reflexivity.
Qed.

Lemma to_upper_length (s : string) : String.length (to_upper s) = String.length s.
Proof. induction s; simpl; auto. Qed.

Lemma hex_of_bytes_length (bs : list Z) :
  String.length (hex_of_bytes bs) = (2 * List.length bs)%nat.
Proof. induction bs; simpl; [reflexivity | rewrite IHbs; lia]. Qed.

Lemma digest_length (m : list Z) : List.length (MD5.digest m) = 16%nat.
Proof.
  unfold MD5.digest. cbv zeta.
  destruct (fold_left MD5.compress _ MD5.init) as [a b c d]. reflexivity.
Qed.

Lemma md5_hex_upper_length (s : string) : String.length (md5_hex_upper s) = 32%nat.
Proof.
  unfold md5_hex_upper. rewrite to_upper_length, hex_of_bytes_length, digest_length.
  reflexivity.
Qed.

Lemma Return_inj {A} (a b : A) : Return a = Return b -> a = b.
Proof. intro H. injection H. auto. Qed.

Lemma createSignature_result (params : list jsval) (s : string) :
  createSignature params = Return s ->
  exists msg, s = md5_hex_upper msg.
Proof.
  unfold createSignature. intro H.
  destruct (map_to_str (filter is_present params)) as [l|e] eqn:E;
    cbn [res_bind] in H; [| discriminate H].
  apply Return_inj in H. exists (join_empty l). rewrite <- H. reflexivity.
Qed.

Lemma createSignature_length (params : list jsval) (s : string) :
  createSignature params = Return s -> String.length s = 32%nat.
Proof.
  intro H. destruct (createSignature_result _ _ H) as [msg ->].
  apply md5_hex_upper_length.
Qed.

Lemma length32_truthy (s : string) :
  String.length s = 32%nat -> truthy (JStr s) = true.
Proof. destruct s; simpl; [discriminate | reflexivity]. Qed.

Lemma falsy_strict_eq_false (v : jsval) (m : string) :
  truthy v = false -> String.length m = 32%nat -> strict_eq_str v m = false.
Proof.
  intros Hv Hm. destruct v as [| | | |t| |]; try reflexivity.
  cbn in Hv. destruct (String.eqb t "") eqn:E; [| discriminate Hv].
  apply String.eqb_eq in E. subst t.
  destruct m; [discriminate Hm | reflexivity].
Qed.

(** [verifyNotification] on a payload object, unfolded. *)
Lemma verify_notification_eq (self : BufPay) (a o u p pp sg : jsval) :
  verifyNotification self (notification a o u p pp sg) =
  if negb (truthy a) || negb (truthy o) || negb (truthy u)
     || negb (truthy p) || negb (truthy pp) || negb (truthy sg)
  then Return false
  else (e <-? createSignature [a; o; u; p; pp; appSecret self] ;;
        Return (strict_eq_str sg e)).
Proof. reflexivity. Qed.

Lemma map_to_str_app (l1 l2 : list jsval) :
  map_to_str (l1 ++ l2) =
  (ss1 <-? map_to_str l1 ;; ss2 <-? map_to_str l2 ;; Return (ss1 ++ ss2)%list).
Proof.
  induction l1 as [|v l1 IH]; cbn [app map_to_str].
  - destruct (map_to_str l2); reflexivity.
  - rewrite IH. destruct (to_str v), (map_to_str l1), (map_to_str l2); reflexivity.
Qed.

Lemma filter_drop (l1 l2 : list jsval) (v : jsval) :
  is_present v = false ->
  filter is_present (l1 ++ v :: l2) = filter is_present (l1 ++ l2).
Proof. intro H. rewrite !filter_app. cbn [filter]. now rewrite H. Qed.

Lemma filter_keep (l1 l2 : list jsval) (v : jsval) :
  is_present v = true ->
  filter is_present (l1 ++ v :: l2) = (filter is_present l1 ++ v :: filter is_present l2)%list.
Proof. intro H. rewrite !filter_app. cbn [filter]. now rewrite H. Qed.

Lemma absent_falsy (v : jsval) : is_present v = false -> truthy v = false.
Proof. destruct v; cbn; congruence. Qed.

Lemma primitive_to_str (v : jsval) : is_primitive v = true -> exists t, to_str v = Return t.
Proof. destruct v; cbn; intro H; try discriminate H; eauto. Qed.

Lemma primitive_map_to_str (l : list jsval) :
  forallb is_primitive l = true -> exists ss, map_to_str l = Return ss.
Proof.
  induction l as [|v l IH]; cbn [forallb map_to_str]; [eauto |].
  intro H. apply andb_true_iff in H as [Hv Hl].
  destruct (primitive_to_str v Hv) as [t ->]. destruct (IH Hl) as [ss ->].
  cbn. eauto.
Qed.

Lemma forallb_filter {A} (p q : A -> bool) (l : list A) :
  forallb p l = true -> forallb p (filter q l) = true.
Proof.
  induction l as [|x l IH]; cbn; [reflexivity |].
  intro H. apply andb_true_iff in H as [Hx Hl].
  destruct (q x); cbn; [rewrite Hx |]; auto.
Qed.

(** [verifyNotification] on anything but [null] and [undefined]. *)
Lemma verify_unfold (self : BufPay) (params : jsval) :
  params <> JUndefined -> params <> JNull ->
  verifyNotification self params =
    let aoid := get_prop params "aoid" in
    let order_id := get_prop params "order_id" in
    let order_uid := get_prop params "order_uid" in
    let price := get_prop params "price" in
    let pay_price := get_prop params "pay_price" in
    let sign := get_prop params "sign" in
    if negb (truthy aoid) || negb (truthy order_id) || negb (truthy order_uid)
       || negb (truthy price) || negb (truthy pay_price) || negb (truthy sign)
    then Return false
    else
      expectedSignature <-?
        createSignature [aoid; order_id; order_uid; price; pay_price; appSecret self] ;;
      Return (strict_eq_str sign expectedSignature).
Proof. intros H1 H2. destruct params; try congruence; reflexivity. Qed.

(** [createPayment] on anything but [null] and [undefined]. *)
Lemma createPayment_unfold (axios : http_request -> net_outcome) (self : BufPay) (args : jsval) :
  args <> JUndefined -> args <> JNull ->
  createPayment axios self args =
    let name := get_prop args "name" in
    let payType := get_prop args "payType" in
    let price := get_prop args "price" in
    let orderId := get_prop args "orderId" in
    let orderUid := get_prop args "orderUid" in
    let notifyUrl := get_prop args "notifyUrl" in
    let returnUrl := default_empty (get_prop args "returnUrl") in
    let feedbackUrl := default_empty (get_prop args "feedbackUrl") in
    if negb (truthy name) || negb (truthy payType) || negb (truthy price)
       || negb (truthy orderId) || negb (truthy orderUid) || negb (truthy notifyUrl)
    then throw (Error "Missing required payment parameters")
    else
      signature <- lift (createSignature
                           [name; payType; price; orderId; orderUid; notifyUrl;
                            returnUrl; feedbackUrl; appSecret self]) ;;
      formData <- lift (form_of [("name", name); ("pay_type", payType);
                                 ("price", price); ("order_id", orderId);
                                 ("order_uid", orderUid); ("notify_url", notifyUrl);
                                 ("return_url", returnUrl); ("feedback_url", feedbackUrl);
                                 ("sign", JStr signature)]) ;;
      try_catch
        (id <- lift (to_str (appId self)) ;;
         send axios (mk_request POST (baseUrl self ++ "/pay/" ++ id ++ "?format=json") formData))
        (fun error => throw (Error ("Payment creation failed: " ++ error_message error))).
Proof. intros H1 H2. destruct args; try congruence; reflexivity. Qed.

Lemma all_truthy6 (a b c d e f : jsval) :
  forallb truthy [a; b; c; d; e; f] = true ->
  (negb (truthy a) || negb (truthy b) || negb (truthy c)
   || negb (truthy d) || negb (truthy e) || negb (truthy f)) = false.
Proof.
  cbn [forallb]. destruct (truthy a), (truthy b), (truthy c), (truthy d), (truthy e), (truthy f);
    cbn; congruence.
Qed.

Lemma log_grows (log : list http_request) (r : http_request) : log <> (log ++ [r])%list.
Proof.
  intro H. apply (f_equal (@List.length _)) in H. rewrite length_app in H. cbn in H. lia.
Qed.

Lemma form_of_last (fs : list (string * jsval)) (k s : string) (fd : list (string * string)) :
  form_of (fs ++ [(k, JStr s)]) = Return fd -> exists pre, fd = (pre ++ [(k, s)])%list.
Proof.
  revert fd. induction fs as [|[k' v] fs IH]; intros fd H; cbn in H.
  - apply Return_inj in H. subst fd. exists []. reflexivity.
  - destruct (to_str v) as [t|e]; cbn [res_bind] in H; [| discriminate H].
    destruct (form_of (fs ++ [(k, JStr s)])) as [rest|e] eqn:E; cbn [res_bind] in H;
      [| discriminate H].
    apply Return_inj in H. subst fd.
    destruct (IH rest eq_refl) as [pre ->]. exists ((k', t) :: pre). reflexivity.
Qed.

Lemma hex_digit_upper (n : Z) : is_upper_hex (ascii_upper (hex_digit n)) = true.
Proof.
  unfold hex_digit.
  assert (Hb : (Z.to_nat (Z.land n 15) < 16)%nat).
  { change 15%Z with (Z.ones 4). rewrite Z.land_ones by lia.
    pose proof (Z.mod_pos_bound n (2 ^ 4) ltac:(lia)). lia. }
  generalize dependent (Z.to_nat (Z.land n 15)). intros k Hk.
  do 16 (destruct k as [|k]; [reflexivity |]). lia.
Qed.

Lemma hex_upper_all (bs : list Z) : all_chars is_upper_hex (to_upper (hex_of_bytes bs)) = true.
Proof.
  induction bs as [|b bs IH]; [reflexivity |].
  cbn [hex_of_bytes to_upper all_chars]. rewrite !hex_digit_upper, IH. reflexivity.
Qed.

Lemma digit_lower (c : ascii) : is_digit c = true -> ascii_lower c = c.
Proof.
  unfold is_digit, ascii_lower. intro H. apply andb_true_iff in H as [H1 H2].
  apply Nat.leb_le in H1, H2.
  destruct (65 <=? nat_of_ascii c)%nat eqn:E; [apply Nat.leb_le in E; lia | reflexivity].
Qed.

Lemma letter_lower (c : ascii) :
  is_upper_hex c = true -> is_digit c = false -> ascii_lower c <> c.
Proof.
  unfold is_upper_hex. intros H Hd. rewrite Hd in H. cbn [orb] in H.
  apply andb_true_iff in H as [H1 H2]. apply Nat.leb_le in H1, H2.
  unfold ascii_lower. apply Nat.leb_le in H1 as H1'. apply Nat.leb_le in H1.
  assert (H2' : (nat_of_ascii c <=? 90)%nat = true) by (apply Nat.leb_le; lia).
  rewrite H1, H2'. cbn [andb]. intro E.
  apply (f_equal nat_of_ascii) in E.
  rewrite nat_ascii_embedding in E by lia. lia.
Qed.

Lemma lower_differs (s : string) :
  all_chars is_upper_hex s = true -> all_chars is_digit s = false -> to_lower s <> s.
Proof.
  induction s as [|c s IH]; cbn [all_chars to_lower]; [discriminate |].
  intros Hu Hd E. injection E as Ec Es.
  apply andb_true_iff in Hu as [Hc Hs].
  destruct (is_digit c) eqn:Dc; cbn [andb] in Hd.
  - exact (IH Hs Hd Es).
  - exact (letter_lower c Hc Dc Ec).
Qed.

Lemma createSignature_upper_hex (params : list jsval) (s : string) :
  createSignature params = Return s -> all_chars is_upper_hex s = true.
Proof.
  intro H. destruct (createSignature_result _ _ H) as [msg ->]. apply hex_upper_all.
Qed.

(** A falsy value of any of the six fields makes [verifyNotification]
    return false before any signature is computed. *)
Lemma verify_falsy_field (self : BufPay) (params : jsval) (k : string) :
  params <> JUndefined -> params <> JNull ->
  In k notification_fields -> truthy (get_prop params k) = false ->
  verifyNotification self params = Return false.
Proof.
  intros H1 H2 Hk Hp. rewrite (verify_unfold self params H1 H2). cbv zeta.
  cbn in Hk.
  destruct Hk as [<-|[<-|[<-|[<-|[<-|[<-|[]]]]]]]; rewrite Hp; cbn [negb];
    rewrite ?orb_true_r; reflexivity.
Qed.

Lemma string_app_assoc (x y z : string) : ((x ++ y) ++ z) = (x ++ (y ++ z)).
Proof. induction x as [|c x IH]; cbn; [reflexivity | now rewrite IH]. Qed.

Lemma nonempty_truthy (s : string) : s <> "" -> truthy (JStr s) = true.
Proof. intro H. cbn. apply String.eqb_neq in H. now rewrite H. Qed.

(** [verifyNotification] on string fields and a string secret. *)
Lemma verify_strings (id : jsval) (secret a o u p pp : string) (sign : jsval) :
  a <> "" -> o <> "" -> u <> "" -> p <> "" -> pp <> "" ->
  verifyNotification (new_BufPay id (JStr secret))
    (notification (JStr a) (JStr o) (JStr u) (JStr p) (JStr pp) sign)
  = Return (strict_eq_str sign (md5_hex_upper (a ++ o ++ u ++ p ++ pp ++ secret))).
Proof.
  intros Ha Ho Hu Hp Hpp.
  rewrite verify_notification_eq.
  rewrite (nonempty_truthy a Ha), (nonempty_truthy o Ho), (nonempty_truthy u Hu),
    (nonempty_truthy p Hp), (nonempty_truthy pp Hpp).
  cbn [negb orb appSecret new_BufPay].
  change [JStr a; JStr o; JStr u; JStr p; JStr pp; JStr secret]
    with (map JStr [a; o; u; p; pp; secret]).
  rewrite createSignature_strs. cbn [res_bind String.concat String.append].
  destruct (truthy sign) eqn:Hs; cbn [negb]; [reflexivity |].
  rewrite falsy_strict_eq_false; [reflexivity | assumption | apply md5_hex_upper_length].
Qed.


Lemma forallb_truthy6 (a b c d e f : jsval) :
  forallb truthy [a; b; c; d; e; f] =
  negb (negb (truthy a) || negb (truthy b) || negb (truthy c)
        || negb (truthy d) || negb (truthy e) || negb (truthy f)).
Proof.
  cbn [forallb]. destruct (truthy a), (truthy b), (truthy c), (truthy d), (truthy e), (truthy f);
    reflexivity.
Qed.

Lemma falsy5_orb (a b c d e f : jsval) :
  forallb truthy [a; b; c; d; e] = false ->
  (negb (truthy a) || negb (truthy b) || negb (truthy c)
   || negb (truthy d) || negb (truthy e) || negb (truthy f)) = true.
Proof.
  cbn [forallb]. destruct (truthy a), (truthy b), (truthy c), (truthy d), (truthy e), (truthy f);
    cbn; congruence.
Qed.

Lemma digits_lower (s : string) : all_chars is_digit s = true -> to_lower s = s.
Proof.
  induction s as [|c s IH]; cbn [all_chars to_lower]; [reflexivity |].
  intro H. apply andb_true_iff in H as [Hc Hs]. now rewrite (digit_lower c Hc), (IH Hs).
Qed.

(** ** Claims *)

(** C1 (as stated, refuted).  With [aoid = ""] the supplied sign equals the
    uppercase MD5 of the concatenation "" ++ "O1" ++ ... ++ secret, yet
    [verifyNotification] returns false: the "if and only if" fails. *)
Lemma C1_counterexample :
  strict_eq_str (JStr (md5_hex_upper ("" ++ "O1" ++ "U1" ++ "10.00" ++ "9.50" ++ "s3cr3t")))
    (md5_hex_upper ("" ++ "O1" ++ "U1" ++ "10.00" ++ "9.50" ++ "s3cr3t")) = true /\
  verifyNotification demo_client
    (notification (JStr "") (JStr "O1") (JStr "U1") (JStr "10.00") (JStr "9.50")
       (JStr (md5_hex_upper ("" ++ "O1" ++ "U1" ++ "10.00" ++ "9.50" ++ "s3cr3t"))))
  = Return false.
Proof. split; vm_compute; reflexivity. Qed.

(** C1 (amended): for a client whose secret is a string and a payload whose
    five fields are strings, [verifyNotification] returns true iff [sign]
    is a string equal to the uppercase hexadecimal MD5 of
    aoid ++ order_id ++ order_uid ++ price ++ pay_price ++ secret when the
    five fields are non-empty, and returns false whatever the sign when one
    of them is empty; on the example of the spec it accepts the right
    signature and rejects it once pay_price is changed to "9.51". *)
Theorem C1_verify_iff_signature (id : jsval) (secret a o u p pp : string) (sign : jsval) :
  ((a <> "" -> o <> "" -> u <> "" -> p <> "" -> pp <> "" ->
    verifyNotification (new_BufPay id (JStr secret))
      (notification (JStr a) (JStr o) (JStr u) (JStr p) (JStr pp) sign)
    = Return (strict_eq_str sign (md5_hex_upper (a ++ o ++ u ++ p ++ pp ++ secret)))) /\
   (a = "" \/ o = "" \/ u = "" \/ p = "" \/ pp = "" ->
    verifyNotification (new_BufPay id (JStr secret))
      (notification (JStr a) (JStr o) (JStr u) (JStr p) (JStr pp) sign) = Return false)) /\
  verifyNotification demo_client
    (notification (JStr "A1") (JStr "O1") (JStr "U1") (JStr "10.00") (JStr "9.50")
       (JStr (md5_hex_upper "A1O1U110.009.50s3cr3t"))) = Return true /\
  verifyNotification demo_client
    (notification (JStr "A1") (JStr "O1") (JStr "U1") (JStr "10.00") (JStr "9.51")
       (JStr (md5_hex_upper "A1O1U110.009.50s3cr3t"))) = Return false.
Proof.
  split; [split | split; vm_compute; reflexivity].
  - exact (verify_strings id secret a o u p pp sign).
  - intro H. rewrite verify_notification_eq.
    destruct H as [ -> | [ -> | [ -> | [ -> | -> ] ] ] ]; cbn [truthy negb];
      rewrite ?orb_true_r; reflexivity.
Qed.

Lemma C1_witness :
  ("A1" <> "" /\ "O1" <> "" /\ "U1" <> "" /\ "10.00" <> "" /\ "9.50" <> "") /\
  verifyNotification (new_BufPay (JStr "app") (JStr "s3cr3t"))
    (notification (JStr "A1") (JStr "O1") (JStr "U1") (JStr "10.00") (JStr "9.50")
       (JStr (md5_hex_upper "A1O1U110.009.50s3cr3t")))
  = Return (strict_eq_str (JStr (md5_hex_upper "A1O1U110.009.50s3cr3t"))
              (md5_hex_upper ("A1" ++ "O1" ++ "U1" ++ "10.00" ++ "9.50" ++ "s3cr3t"))).
Proof.
  split; [repeat split; discriminate |].
  refine (proj1 (proj1 (C1_verify_iff_signature (JStr "app") "s3cr3t" "A1" "O1" "U1" "10.00" "9.50"
                   (JStr (md5_hex_upper "A1O1U110.009.50s3cr3t")))) _ _ _ _ _);
    discriminate.
Defined.

(** C2 (as stated, refuted).  The present field value [aoid = ""] is signed
    by the signing function, but the payload carrying that signature is
    rejected. *)
Lemma C2_counterexample :
  createSignature [JStr ""; JStr "O1"; JStr "U1"; JStr "10.00"; JStr "9.50"; JStr "s3cr3t"]
    = Return (md5_hex_upper "O1U110.009.50s3cr3t") /\
  verifyNotification demo_client
    (notification (JStr "") (JStr "O1") (JStr "U1") (JStr "10.00") (JStr "9.50")
       (JStr (md5_hex_upper "O1U110.009.50s3cr3t"))) = Return false.
Proof. split; vm_compute; reflexivity. Qed.

(** C2 (amended): for every tuple of truthy field values (non-empty strings,
    non-zero numbers, true, objects, arrays) and every secret, when the
    signing function produces [s] over the tuple and the secret,
    [verifyNotification] of a client holding that secret accepts the
    payload carrying [s].  A payload with a falsy field value (such as "",
    0 or false) is rejected whatever its sign, although the signing
    function signs every tuple of primitive values. *)
Theorem C2_sign_verify_roundtrip (id secret a o u p pp : jsval) (s : string) :
  (truthy a = true -> truthy o = true -> truthy u = true ->
   truthy p = true -> truthy pp = true ->
   createSignature [a; o; u; p; pp; secret] = Return s ->
   verifyNotification (new_BufPay id secret) (notification a o u p pp (JStr s)) = Return true) /\
  (forallb truthy [a; o; u; p; pp] = false -> forall sg : jsval,
   verifyNotification (new_BufPay id secret) (notification a o u p pp sg) = Return false) /\
  (forallb is_primitive [a; o; u; p; pp; secret] = true ->
   exists s', createSignature [a; o; u; p; pp; secret] = Return s').
Proof.
  split; [| split].
  - intros Ha Ho Hu Hp Hpp Hs.
    rewrite verify_notification_eq.
    rewrite Ha, Ho, Hu, Hp, Hpp, (length32_truthy s (createSignature_length _ _ Hs)).
    cbn [negb orb appSecret new_BufPay]. rewrite Hs. cbn [res_bind strict_eq_str].
    now rewrite String.eqb_refl.
  - intros Hf sg. rewrite verify_notification_eq, (falsy5_orb _ _ _ _ _ sg Hf). reflexivity.
  - intro Hprim. unfold createSignature.
    destruct (primitive_map_to_str _ (forallb_filter _ is_present _ Hprim)) as [ss ->].
    cbn [res_bind]. eauto.
Qed.

Lemma C2_witness :
  createSignature [JStr "A1"; JStr "O1"; JStr "U1"; JNum 10; JStr "9.50"; JStr "s3cr3t"]
    = Return (md5_hex_upper "A1O1U1109.50s3cr3t") /\
  verifyNotification (new_BufPay (JStr "app") (JStr "s3cr3t"))
    (notification (JStr "A1") (JStr "O1") (JStr "U1") (JNum 10) (JStr "9.50")
       (JStr (md5_hex_upper "A1O1U1109.50s3cr3t"))) = Return true.
Proof.
  assert (Hs : createSignature [JStr "A1"; JStr "O1"; JStr "U1"; JNum 10; JStr "9.50"; JStr "s3cr3t"]
                 = Return (md5_hex_upper "A1O1U1109.50s3cr3t")) by (vm_compute; reflexivity).
  split; [exact Hs |].
  apply (proj1 (C2_sign_verify_roundtrip (JStr "app") (JStr "s3cr3t") (JStr "A1") (JStr "O1")
           (JStr "U1") (JNum 10) (JStr "9.50") (md5_hex_upper "A1O1U1109.50s3cr3t")));
    first [exact Hs | reflexivity].
Defined.

(** C3 (as stated, refuted).  [verifyNotification] throws on a [null]
    payload (destructuring) and on a JSON payload whose [aoid] is an object
    with its own [toString] key (string conversion while signing). *)
Lemma C3_counterexample :
  verifyNotification demo_client JNull = Throw destructure_error /\
  verifyNotification demo_client
    (notification (JObj [("toString", JNum 1)]) (JStr "O1") (JStr "U1") (JStr "10.00")
       (JStr "9.50") (JStr "X")) = Throw cannot_convert.
Proof. split; vm_compute; reflexivity. Qed.

(** C3 (amended): [verifyNotification] throws a TypeError on a [null] or
    [undefined] payload.  For any other payload, the absence
    ([null]/[undefined]) of any of the six fields makes it return false,
    and it throws exactly when all six fields are truthy and converting
    one of the present signed fields or the secret to a string throws
    (the error thrown is that of the conversion); otherwise it returns a
    boolean. *)
Theorem C3_verify_throws_iff (self : BufPay) (params : jsval) :
  verifyNotification self JUndefined = Throw destructure_error /\
  verifyNotification self JNull = Throw destructure_error /\
  (params <> JUndefined -> params <> JNull ->
   ((exists k, In k notification_fields /\ is_present (get_prop params k) = false) ->
    verifyNotification self params = Return false) /\
   (forall e, verifyNotification self params = Throw e <->
      forallb truthy (map (get_prop params) notification_fields) = true /\
      map_to_str (filter is_present
                    [get_prop params "aoid"; get_prop params "order_id";
                     get_prop params "order_uid"; get_prop params "price";
                     get_prop params "pay_price"; appSecret self]) = Throw e)).
Proof.
  split; [reflexivity | split; [reflexivity |]].
  intros H1 H2. split.
  - intros (k & Hk & Hp).
    exact (verify_falsy_field self params k H1 H2 Hk (absent_falsy _ Hp)).
  - intro e. rewrite (verify_unfold self params H1 H2). cbv zeta.
    cbn [map notification_fields]. rewrite forallb_truthy6.
    destruct (_ || _) eqn:Ho; cbn [negb].
    + split; [discriminate | intros [H _]; discriminate H].
    + unfold createSignature.
      destruct (map_to_str _) as [ss|e'] eqn:E; cbn [res_bind].
      * split; [discriminate | intros [_ H]; discriminate H].
      * split; intro H.
        -- injection H as ->. split; reflexivity.
        -- destruct H as [_ H]. injection H as ->. reflexivity.
Qed.

Lemma C3_witness :
  (notification JNull (JStr "O1") (JStr "U1") (JStr "10.00") (JStr "9.50") (JStr "X") <> JUndefined /\
   notification JNull (JStr "O1") (JStr "U1") (JStr "10.00") (JStr "9.50") (JStr "X") <> JNull) /\
  verifyNotification demo_client
    (notification JNull (JStr "O1") (JStr "U1") (JStr "10.00") (JStr "9.50") (JStr "X"))
  = Return false.
Proof.
  split; [split; discriminate |].
  apply (proj1 (proj2 (proj2 (C3_verify_throws_iff demo_client
                  (notification JNull (JStr "O1") (JStr "U1") (JStr "10.00") (JStr "9.50") (JStr "X"))))
                  ltac:(discriminate) ltac:(discriminate))).
  exists "aoid". split; [left; reflexivity | reflexivity].
Defined.

(** C4: the signing function drops exactly the [null] and [undefined]
    entries, keeps every other entry (an empty string included) as its
    string conversion, concatenates the texts in order without delimiter,
    and returns the uppercase hexadecimal MD5 of the UTF-8 bytes. *)
Theorem C4_createSignature_spec :
  is_present (JStr "") = true /\
  (forall l1 l2, createSignature (l1 ++ JUndefined :: l2) = createSignature (l1 ++ l2)) /\
  (forall l1 l2, createSignature (l1 ++ JNull :: l2) = createSignature (l1 ++ l2)) /\
  (forall ss, createSignature (map JStr ss) =
              Return (to_upper (hex_of_bytes (MD5.digest (utf8_encode (String.concat "" ss)))))) /\
  (forall l1 l2 v t, is_present v = true -> to_str v = Return t ->
     createSignature (l1 ++ v :: l2) = createSignature (l1 ++ JStr t :: l2)).
Proof.
  split; [reflexivity |].
  split; [intros l1 l2; unfold createSignature; now rewrite filter_drop |].
  split; [intros l1 l2; unfold createSignature; now rewrite filter_drop |].
  split; [intro ss; apply createSignature_strs |].
  intros l1 l2 v t Hv Ht. unfold createSignature.
  rewrite (filter_keep l1 l2 v Hv), (filter_keep l1 l2 (JStr t) eq_refl).
  rewrite !map_to_str_app. cbn [map_to_str]. rewrite Ht. reflexivity.
Qed.

Lemma C4_witness :
  (is_present (JNum 5) = true /\ to_str (JNum 5) = Return "5") /\
  createSignature ([JStr "a"] ++ JNum 5 :: [JNull; JStr "s"])
  = createSignature ([JStr "a"] ++ JStr "5" :: [JNull; JStr "s"]).
Proof.
  split; [split; reflexivity |].
  apply (proj2 (proj2 (proj2 (proj2 C4_createSignature_spec)))); reflexivity.
Defined.

(** C5: a [createPayment] request object missing ([null]/[undefined]) any
    of name, payType, price, orderId, orderUid, notifyUrl fails with the
    validation error and issues no request (the log is unchanged). *)
Theorem C5_missing_field_no_network (axios : http_request -> net_outcome)
    (self : BufPay) (args : jsval) (log : list http_request) :
  args <> JUndefined -> args <> JNull ->
  (exists k, In k payment_fields /\ is_present (get_prop args k) = false) ->
  createPayment axios self args log = (Throw (Error "Missing required payment parameters"), log).
Proof.
  intros H1 H2 (k & Hk & Hp). apply absent_falsy in Hp.
  rewrite (createPayment_unfold axios self args H1 H2). cbv zeta.
  cbn in Hk.
  destruct Hk as [<-|[<-|[<-|[<-|[<-|[<-|[]]]]]]]; rewrite Hp; cbn [negb];
    rewrite ?orb_true_r; reflexivity.
Qed.

Lemma C5_witness :
  (JObj [("name", JStr "n"); ("payType", JStr "alipay")] <> JUndefined /\
   JObj [("name", JStr "n"); ("payType", JStr "alipay")] <> JNull) /\
  createPayment (fun _ => NetOk JNull) demo_client
    (JObj [("name", JStr "n"); ("payType", JStr "alipay")]) []
  = (Throw (Error "Missing required payment parameters"), []).
Proof.
  split; [split; discriminate |].
  apply C5_missing_field_no_network; try discriminate.
  exists "price". split; [right; right; left; reflexivity | reflexivity].
Defined.

(** C6: for a valid request, the request sent carries as its last form
    field the [sign] computed over (name, payType, price, orderId,
    orderUid, notifyUrl, returnUrl, feedbackUrl, secret), where an omitted
    ([undefined]) returnUrl or feedbackUrl is replaced by "". *)
Theorem C6_signed_tuple (axios : http_request -> net_outcome) (self : BufPay)
    (args : jsval) (log : list http_request) (r : http_request) (res : js_result jsval) :
  args <> JUndefined -> args <> JNull ->
  forallb truthy [get_prop args "name"; get_prop args "payType"; get_prop args "price";
                  get_prop args "orderId"; get_prop args "orderUid";
                  get_prop args "notifyUrl"] = true ->
  createPayment axios self args log = (res, log ++ [r])%list ->
  exists s,
    createSignature
      [get_prop args "name"; get_prop args "payType"; get_prop args "price";
       get_prop args "orderId"; get_prop args "orderUid"; get_prop args "notifyUrl";
       default_empty (get_prop args "returnUrl");
       default_empty (get_prop args "feedbackUrl");
       appSecret self] = Return s /\
    exists pre, req_form r = (pre ++ [("sign", s)])%list.
Proof.
  intros H1 H2 Hvalid Hrun.
  rewrite (createPayment_unfold axios self args H1 H2) in Hrun. cbv zeta in Hrun.
  rewrite (all_truthy6 _ _ _ _ _ _ Hvalid) in Hrun.
  unfold bind at 1, lift at 1 in Hrun.
  destruct (createSignature _) as [s|e] eqn:Hsig;
    [| apply (f_equal snd) in Hrun; cbn in Hrun; now apply log_grows in Hrun].
  exists s. split; [reflexivity |].
  unfold bind at 1, lift at 1 in Hrun.
  destruct (form_of _) as [fd|e] eqn:Hform;
    [| apply (f_equal snd) in Hrun; cbn in Hrun; now apply log_grows in Hrun].
  unfold try_catch, bind, lift in Hrun.
  destruct (to_str (appId self)) as [id|e];
    [| apply (f_equal snd) in Hrun; cbn in Hrun; now apply log_grows in Hrun].
  unfold send in Hrun.
  destruct (axios _); cbn in Hrun; apply (f_equal snd) in Hrun; cbn in Hrun;
    apply app_inj_tail in Hrun as [_ <-]; cbn;
    exact (form_of_last
             [("name", get_prop args "name"); ("pay_type", get_prop args "payType");
              ("price", get_prop args "price"); ("order_id", get_prop args "orderId");
              ("order_uid", get_prop args "orderUid");
              ("notify_url", get_prop args "notifyUrl");
              ("return_url", default_empty (get_prop args "returnUrl"));
              ("feedback_url", default_empty (get_prop args "feedbackUrl"))] _ _ _ Hform).
Qed.

Lemma C6_witness :
  (JObj [("name", JStr "Test"); ("payType", JStr "alipay"); ("price", JStr "100.00");
         ("orderId", JStr "order123"); ("orderUid", JStr "user123");
         ("notifyUrl", JStr "https://x.com/bufpay/notify")] <> JUndefined /\
   JObj [("name", JStr "Test"); ("payType", JStr "alipay"); ("price", JStr "100.00");
         ("orderId", JStr "order123"); ("orderUid", JStr "user123");
         ("notifyUrl", JStr "https://x.com/bufpay/notify")] <> JNull) /\
  exists s,
    createSignature
      [JStr "Test"; JStr "alipay"; JStr "100.00"; JStr "order123"; JStr "user123";
       JStr "https://x.com/bufpay/notify"; default_empty JUndefined; default_empty JUndefined;
       JStr "s3cr3t"] = Return s /\
    exists pre, req_form
      (mk_request POST "https://bufpay.com/api/pay/app?format=json"
         [("name", "Test"); ("pay_type", "alipay"); ("price", "100.00");
          ("order_id", "order123"); ("order_uid", "user123");
          ("notify_url", "https://x.com/bufpay/notify"); ("return_url", "");
          ("feedback_url", "");
          ("sign", md5_hex_upper "Testalipay100.00order123user123https://x.com/bufpay/notifys3cr3t")])
      = (pre ++ [("sign", s)])%list.
Proof.
  split; [split; discriminate |].
  apply (C6_signed_tuple (fun _ => NetOk JNull) demo_client
           (JObj [("name", JStr "Test"); ("payType", JStr "alipay"); ("price", JStr "100.00");
                  ("orderId", JStr "order123"); ("orderUid", JStr "user123");
                  ("notifyUrl", JStr "https://x.com/bufpay/notify")]) []
           _ (Return JNull)); try discriminate; [reflexivity |].
  vm_compute. reflexivity.
Defined.

(** C7 (as stated, refuted).  The valid signature of this payload consists
    of decimal digits only, so its lowercase variant is itself and is
    still accepted. *)
Lemma C7_counterexample :
  createSignature [JStr "A4589206"; JStr "O1"; JStr "U1"; JStr "10.00"; JStr "9.50"; JStr "s3cr3t"]
    = Return "34044954609376701566206862648364" /\
  to_lower "34044954609376701566206862648364" = "34044954609376701566206862648364" /\
  verifyNotification demo_client
    (notification (JStr "A4589206") (JStr "O1") (JStr "U1") (JStr "10.00") (JStr "9.50")
       (JStr (to_lower "34044954609376701566206862648364"))) = Return true.
Proof. split; [| split]; vm_compute; reflexivity. Qed.

(** C7 (amended): every signature is 32 characters drawn from 0-9 and A-F;
    replacing a valid signature by its lowercase variant makes
    [verifyNotification] return false whenever the signature contains a
    letter (one that is not all decimal digits); when it consists of
    decimal digits only, its lowercase variant is the signature itself and
    gets the same verdict. *)
Theorem C7_signature_shape_and_case (params : list jsval) (s : string) :
  (createSignature params = Return s ->
   String.length s = 32%nat /\ all_chars is_upper_hex s = true) /\
  (forall (self : BufPay) (a o u p pp : jsval),
     createSignature [a; o; u; p; pp; appSecret self] = Return s ->
     all_chars is_digit s = false ->
     verifyNotification self (notification a o u p pp (JStr (to_lower s))) = Return false) /\
  (forall (self : BufPay) (a o u p pp : jsval),
     all_chars is_digit s = true ->
     to_lower s = s /\
     verifyNotification self (notification a o u p pp (JStr (to_lower s)))
     = verifyNotification self (notification a o u p pp (JStr s))).
Proof.
  split; [| split].
  - intro H. split; [exact (createSignature_length _ _ H) | exact (createSignature_upper_hex _ _ H)].
  - intros self a o u p pp Hs Hd.
    rewrite verify_notification_eq.
    destruct (_ || _); [reflexivity |].
    rewrite Hs. cbn [res_bind strict_eq_str]. f_equal.
    apply String.eqb_neq, lower_differs; [exact (createSignature_upper_hex _ _ Hs) | exact Hd].
  - intros self a o u p pp Hd. rewrite (digits_lower s Hd). split; reflexivity.
Qed.

Lemma C7_witness :
  createSignature [JStr "A1"; JStr "O1"; JStr "U1"; JStr "10.00"; JStr "9.50"; JStr "s3cr3t"]
    = Return "74B9C32E2193536FABA89038613BA834" /\
  all_chars is_digit "74B9C32E2193536FABA89038613BA834" = false /\
  verifyNotification demo_client
    (notification (JStr "A1") (JStr "O1") (JStr "U1") (JStr "10.00") (JStr "9.50")
       (JStr (to_lower "74B9C32E2193536FABA89038613BA834"))) = Return false.
Proof.
  assert (Hs : createSignature [JStr "A1"; JStr "O1"; JStr "U1"; JStr "10.00"; JStr "9.50"; JStr "s3cr3t"]
                 = Return "74B9C32E2193536FABA89038613BA834") by (vm_compute; reflexivity).
  split; [exact Hs | split; [reflexivity |]].
  exact (proj1 (proj2 (C7_signature_shape_and_case
                  [JStr "A1"; JStr "O1"; JStr "U1"; JStr "10.00"; JStr "9.50"; JStr "s3cr3t"]
                  "74B9C32E2193536FABA89038613BA834"))
           demo_client (JStr "A1") (JStr "O1") (JStr "U1") (JStr "10.00") (JStr "9.50")
           Hs eq_refl).
Defined.

(** C8 (as stated, refuted).  For a verified body and a callback that
    throws, the callback runs once but the handler throws instead of
    responding 200. *)
Lemma C8_counterexample :
  verifyNotification demo_client demo_body = Return true /\
  notify_handler demo_client (Some (fun _ => Throw (Error "boom"))) demo_body
  = (HandlerThrow (Error "boom"), [demo_body]).
Proof. split; vm_compute; reflexivity. Qed.

(** C8 (amended): a body on which [verifyNotification] returns false gets
    400 "Invalid signature" and no callback call; a body on which it
    returns true is passed once to the callback (when it is a function),
    then the handler responds 200 "OK" if the callback returns, and
    throws the callback's error if it throws. *)
Theorem C8_notify_handler (bufpay : BufPay)
    (onPaymentSuccess : option (jsval -> js_result jsval)) (body : jsval) :
  (verifyNotification bufpay body = Return false ->
   notify_handler bufpay onPaymentSuccess body = (Respond 400 "Invalid signature", [])) /\
  (verifyNotification bufpay body = Return true ->
   (onPaymentSuccess = None ->
    notify_handler bufpay onPaymentSuccess body = (Respond 200 "OK", [])) /\
   (forall f v, onPaymentSuccess = Some f -> f body = Return v ->
    notify_handler bufpay onPaymentSuccess body = (Respond 200 "OK", [body])) /\
   (forall f e, onPaymentSuccess = Some f -> f body = Throw e ->
    notify_handler bufpay onPaymentSuccess body = (HandlerThrow e, [body]))).
Proof.
  unfold notify_handler. split.
  - intro H. now rewrite H.
  - intro H. rewrite H. repeat split.
    + intros ->. reflexivity.
    + intros f v -> Hf. now rewrite Hf.
    + intros f e -> Hf. now rewrite Hf.
Qed.

Lemma C8_witness :
  verifyNotification demo_client demo_body = Return true /\
  notify_handler demo_client (Some (fun _ => Return JUndefined)) demo_body
  = (Respond 200 "OK", [demo_body]).
Proof.
  assert (H : verifyNotification demo_client demo_body = Return true) by (vm_compute; reflexivity).
  split; [exact H |].
  exact (proj1 (proj2 (proj2 (C8_notify_handler demo_client (Some (fun _ => Return JUndefined))
                                demo_body) H))
           (fun _ => Return JUndefined) JUndefined eq_refl eq_refl).
Defined.

(** C9: [queryPayment] on an absent or empty identifier throws the
    validation error and issues no request; on a non-empty string
    identifier it issues one GET and returns the response data as is when
    the gateway answers successfully. *)
Theorem C9_queryPayment (axios : http_request -> net_outcome) (self : BufPay)
    (log : list http_request) :
  (forall aoid, In aoid [JUndefined; JNull; JStr ""] ->
   queryPayment axios self aoid log = (Throw (Error "AOID is required"), log)) /\
  (forall s data, s <> "" ->
   axios (mk_request GET (baseUrl self ++ "/query/" ++ s) []) = NetOk data ->
   queryPayment axios self (JStr s) log
   = (Return data, log ++ [mk_request GET (baseUrl self ++ "/query/" ++ s) []])%list).
Proof.
  split.
  - intros aoid Hin. cbn in Hin.
    destruct Hin as [<-|[<-|[<-|[]]]]; reflexivity.
  - intros s data Hs Hax. unfold queryPayment. cbn [truthy].
    apply String.eqb_neq in Hs. rewrite Hs. cbn [negb].
    unfold try_catch, bind, lift, send. cbn [to_str]. rewrite Hax. reflexivity.
Qed.

Lemma C9_witness :
  ("abc" <> "" /\
   (fun _ : http_request => NetOk (JStr "paid"))
     (mk_request GET (baseUrl demo_client ++ "/query/" ++ "abc") []) = NetOk (JStr "paid")) /\
  queryPayment (fun _ => NetOk (JStr "paid")) demo_client (JStr "abc") []
  = (Return (JStr "paid"), [] ++ [mk_request GET (baseUrl demo_client ++ "/query/" ++ "abc") []])%list.
Proof.
  split; [split; [discriminate | reflexivity] |].
  apply (proj2 (C9_queryPayment (fun _ => NetOk (JStr "paid")) demo_client [])); 
    [discriminate | reflexivity].
Defined.

(** C10: an empty string in any of the six fields makes
    [verifyNotification] return false, even when [sign] is the right
    signature over the values. *)
Theorem C10_empty_field_rejected (self : BufPay) (params : jsval) (k : string) :
  params <> JUndefined -> params <> JNull ->
  In k notification_fields -> get_prop params k = JStr "" ->
  verifyNotification self params = Return false.
Proof.
  intros H1 H2 Hk He. apply (verify_falsy_field self params k H1 H2 Hk).
  rewrite He. reflexivity.
Qed.

Lemma C10_witness :
  createSignature [JStr ""; JStr "O1"; JStr "U1"; JStr "10.00"; JStr "9.50"; JStr "s3cr3t"]
    = Return (md5_hex_upper "O1U110.009.50s3cr3t") /\
  verifyNotification demo_client
    (notification (JStr "") (JStr "O1") (JStr "U1") (JStr "10.00") (JStr "9.50")
       (JStr (md5_hex_upper "O1U110.009.50s3cr3t"))) = Return false.
Proof.
  split; [vm_compute; reflexivity |].
  apply (C10_empty_field_rejected demo_client _ "aoid"); try discriminate;
    [left; reflexivity | reflexivity].
Defined.

(** ** Further properties of the client and the route *)


(** X1: a [createPayment] request whose six mandatory fields are non-empty
    strings and whose optional URLs are strings or omitted, on a client
    with string credentials, issues exactly one POST to
    [/pay/<appId>?format=json] whose form holds the nine fields in order
    (an omitted URL as ""), the last being the signature; it returns the
    response data unchanged, or throws "Payment creation failed: " followed
    by the transport message. *)
Theorem createPayment_string_request (axios : http_request -> net_outcome)
    (id secret n pt pr oi ou nu rv fv : string) (args : jsval) (log : list http_request) :
  get_prop args "name" = JStr n -> get_prop args "payType" = JStr pt ->
  get_prop args "price" = JStr pr -> get_prop args "orderId" = JStr oi ->
  get_prop args "orderUid" = JStr ou -> get_prop args "notifyUrl" = JStr nu ->
  n <> "" -> pt <> "" -> pr <> "" -> oi <> "" -> ou <> "" -> nu <> "" ->
  default_empty (get_prop args "returnUrl") = JStr rv ->
  default_empty (get_prop args "feedbackUrl") = JStr fv ->
  createPayment axios (new_BufPay (JStr id) (JStr secret)) args log =
  (match axios (mk_request POST ("https://bufpay.com/api/pay/" ++ id ++ "?format=json")
                 [("name", n); ("pay_type", pt); ("price", pr); ("order_id", oi);
                  ("order_uid", ou); ("notify_url", nu); ("return_url", rv);
                  ("feedback_url", fv);
                  ("sign", md5_hex_upper (n ++ pt ++ pr ++ oi ++ ou ++ nu ++ rv ++ fv ++ secret))])
   with
   | NetOk data => Return data
   | NetErr m => Throw (Error ("Payment creation failed: " ++ m))
   end,
   log ++ [mk_request POST ("https://bufpay.com/api/pay/" ++ id ++ "?format=json")
            [("name", n); ("pay_type", pt); ("price", pr); ("order_id", oi);
             ("order_uid", ou); ("notify_url", nu); ("return_url", rv);
             ("feedback_url", fv);
             ("sign", md5_hex_upper (n ++ pt ++ pr ++ oi ++ ou ++ nu ++ rv ++ fv ++ secret))]])%list.
Proof.
  intros Hn Hpt Hpr Hoi Hou Hnu En Ept Epr Eoi Eou Enu Hr Hf.
  assert (H1 : args <> JUndefined) by (intros ->; discriminate Hn).
  assert (H2 : args <> JNull) by (intros ->; discriminate Hn).
  rewrite (createPayment_unfold axios _ args H1 H2). cbv zeta.
  rewrite Hn, Hpt, Hpr, Hoi, Hou, Hnu, Hr, Hf.
  rewrite (nonempty_truthy n En), (nonempty_truthy pt Ept), (nonempty_truthy pr Epr),
    (nonempty_truthy oi Eoi), (nonempty_truthy ou Eou), (nonempty_truthy nu Enu).
  cbn [negb orb appSecret appId baseUrl new_BufPay].
  change [JStr n; JStr pt; JStr pr; JStr oi; JStr ou; JStr nu; JStr rv; JStr fv; JStr secret]
    with (map JStr [n; pt; pr; oi; ou; nu; rv; fv; secret]).
  rewrite createSignature_strs.
  unfold bind, lift, try_catch, send. cbn [form_of to_str res_bind String.concat String.append].
  destruct (axios _); reflexivity.
Qed.

Lemma createPayment_string_request_witness :
  (get_prop demo_payment "name" = JStr "Test" /\ "Test" <> "" /\
   default_empty (get_prop demo_payment "returnUrl") = JStr "https://x.com/ok" /\
   default_empty (get_prop demo_payment "feedbackUrl") = JStr "") /\
  createPayment (fun _ => NetErr "timeout") demo_client demo_payment []
  = (Throw (Error ("Payment creation failed: " ++ "timeout")),
     [] ++ [mk_request POST ("https://bufpay.com/api/pay/" ++ "app" ++ "?format=json")
             [("name", "Test"); ("pay_type", "alipay"); ("price", "100.00");
              ("order_id", "order123"); ("order_uid", "user123");
              ("notify_url", "https://x.com/n"); ("return_url", "https://x.com/ok");
              ("feedback_url", "");
              ("sign", md5_hex_upper ("Test" ++ "alipay" ++ "100.00" ++ "order123" ++ "user123"
                                      ++ "https://x.com/n" ++ "https://x.com/ok" ++ "" ++ "s3cr3t"))]])%list.
Proof.
  split; [repeat split; first [reflexivity | discriminate] |].
  exact (createPayment_string_request (fun _ => NetErr "timeout") "app" "s3cr3t"
           "Test" "alipay" "100.00" "order123" "user123" "https://x.com/n" "https://x.com/ok" ""
           demo_payment [] eq_refl eq_refl eq_refl eq_refl eq_refl eq_refl
           ltac:(discriminate) ltac:(discriminate) ltac:(discriminate) ltac:(discriminate)
           ltac:(discriminate) ltac:(discriminate) eq_refl eq_refl).
Defined.

(** X2: [queryPayment] on a non-empty string identifier issues one GET to
    [/query/<id>]; a transport failure is rethrown as "Payment query
    failed: " followed by its message.  An identifier object whose string
    conversion throws is reported the same way, with no request issued. *)
Theorem queryPayment_failure_wrapped (axios : http_request -> net_outcome) (self : BufPay)
    (log : list http_request) :
  (forall s m, s <> "" ->
   axios (mk_request GET (baseUrl self ++ "/query/" ++ s) []) = NetErr m ->
   queryPayment axios self (JStr s) log
   = (Throw (Error ("Payment query failed: " ++ m)),
      log ++ [mk_request GET (baseUrl self ++ "/query/" ++ s) []])%list) /\
  (forall ps, has_own "toString" ps = true ->
   queryPayment axios self (JObj ps) log
   = (Throw (Error ("Payment query failed: " ++ error_message cannot_convert)), log)).
Proof.
  split.
  - intros s m Hs Hax. unfold queryPayment. rewrite (nonempty_truthy s Hs). cbn [negb].
    unfold try_catch, bind, lift, send. cbn [to_str]. rewrite Hax. reflexivity.
  - intros ps Hps. unfold queryPayment. cbn [truthy negb].
    unfold try_catch, bind, lift. cbn [to_str]. rewrite Hps. reflexivity.
Qed.

Lemma queryPayment_failure_wrapped_witness :
  ("abc" <> "" /\
   (fun _ : http_request => NetErr "Request failed with status code 404")
     (mk_request GET (baseUrl demo_client ++ "/query/" ++ "abc") [])
   = NetErr "Request failed with status code 404") /\
  queryPayment (fun _ => NetErr "Request failed with status code 404") demo_client (JStr "abc") []
  = (Throw (Error ("Payment query failed: " ++ "Request failed with status code 404")),
     [] ++ [mk_request GET (baseUrl demo_client ++ "/query/" ++ "abc") []])%list.
Proof.
  split; [split; [discriminate | reflexivity] |].
  apply (proj1 (queryPayment_failure_wrapped (fun _ => NetErr "Request failed with status code 404")
                  demo_client [])); [discriminate | reflexivity].
Defined.

(** X3: whatever the request and whatever the network does,
    [createPayment] and [queryPayment] each issue at most one request:
    there is no retry. *)
Theorem at_most_one_request (axios : http_request -> net_outcome) (self : BufPay)
    (v : jsval) (log : list http_request) :
  (exists rs, snd (createPayment axios self v log) = (log ++ rs)%list /\ (List.length rs <= 1)%nat) /\
  (exists rs, snd (queryPayment axios self v log) = (log ++ rs)%list /\ (List.length rs <= 1)%nat).
Proof.
  split.
  - destruct v as [| | | | | |ps];
      try (exists []; rewrite app_nil_r; split; [reflexivity | cbn; lia]);
      match goal with |- context [createPayment _ _ ?a _] =>
        assert (H1 : a <> JUndefined) by discriminate;
        assert (H2 : a <> JNull) by discriminate;
        rewrite (createPayment_unfold axios self a H1 H2); cbv zeta
      end;
      destruct (_ || _); [exists []; rewrite app_nil_r; split; [reflexivity | cbn; lia] |];
      unfold bind at 1, lift at 1;
      destruct (createSignature _);
        [| exists []; rewrite app_nil_r; split; [reflexivity | cbn; lia]];
      unfold bind at 1, lift at 1;
      destruct (form_of _);
        [| exists []; rewrite app_nil_r; split; [reflexivity | cbn; lia]];
      unfold try_catch, bind, lift, send, throw;
      destruct (to_str (appId self));
        try (exists []; rewrite app_nil_r; split; [reflexivity | cbn; lia]);
      destruct (axios _); eexists; (split; [reflexivity | cbn; lia]).
  - unfold queryPayment. destruct (negb (truthy v)).
    + exists []. rewrite app_nil_r. split; [reflexivity | cbn; lia].
    + unfold try_catch, bind, lift, send, throw.
      destruct (to_str v); [destruct (axios _) |];
        first [eexists; split; [reflexivity | cbn; lia]
              | exists []; rewrite app_nil_r; split; [reflexivity | cbn; lia]].
Qed.

(** X4: a [null] returnUrl is not replaced by the default (which applies
    to [undefined] only): the form sent carries return_url = "null", while
    the signature skips the [null] entry and so equals the one computed
    with an empty return URL. *)
Theorem createPayment_null_returnUrl (axios : http_request -> net_outcome)
    (id secret n pt pr oi ou nu fv : string) (args : jsval) (log : list http_request) :
  get_prop args "name" = JStr n -> get_prop args "payType" = JStr pt ->
  get_prop args "price" = JStr pr -> get_prop args "orderId" = JStr oi ->
  get_prop args "orderUid" = JStr ou -> get_prop args "notifyUrl" = JStr nu ->
  n <> "" -> pt <> "" -> pr <> "" -> oi <> "" -> ou <> "" -> nu <> "" ->
  get_prop args "returnUrl" = JNull ->
  default_empty (get_prop args "feedbackUrl") = JStr fv ->
  exists res,
  createPayment axios (new_BufPay (JStr id) (JStr secret)) args log =
  (res,
   log ++ [mk_request POST ("https://bufpay.com/api/pay/" ++ id ++ "?format=json")
            [("name", n); ("pay_type", pt); ("price", pr); ("order_id", oi);
             ("order_uid", ou); ("notify_url", nu); ("return_url", "null");
             ("feedback_url", fv);
             ("sign", md5_hex_upper (n ++ pt ++ pr ++ oi ++ ou ++ nu ++ "" ++ fv ++ secret))]])%list.
Proof.
  intros Hn Hpt Hpr Hoi Hou Hnu En Ept Epr Eoi Eou Enu Hr Hf.
  assert (H1 : args <> JUndefined) by (intros ->; discriminate Hn).
  assert (H2 : args <> JNull) by (intros ->; discriminate Hn).
  rewrite (createPayment_unfold axios _ args H1 H2). cbv zeta.
  rewrite Hn, Hpt, Hpr, Hoi, Hou, Hnu, Hr, Hf.
  rewrite (nonempty_truthy n En), (nonempty_truthy pt Ept), (nonempty_truthy pr Epr),
    (nonempty_truthy oi Eoi), (nonempty_truthy ou Eou), (nonempty_truthy nu Enu).
  cbn [negb orb appSecret appId baseUrl new_BufPay default_empty].
  change [JStr n; JStr pt; JStr pr; JStr oi; JStr ou; JStr nu; JNull; JStr fv; JStr secret]
    with ([JStr n; JStr pt; JStr pr; JStr oi; JStr ou; JStr nu] ++ JNull :: [JStr fv; JStr secret])%list.
  unfold createSignature at 1. rewrite filter_drop by reflexivity.
  change ([JStr n; JStr pt; JStr pr; JStr oi; JStr ou; JStr nu] ++ [JStr fv; JStr secret])%list
    with (map JStr [n; pt; pr; oi; ou; nu; fv; secret]).
  rewrite filter_present_strs, map_to_str_strs.
  unfold bind, lift, try_catch, send, join_empty, md5_hex_upper.
  cbn [form_of to_str res_bind String.concat String.append].
  destruct (axios _); eexists; reflexivity.
Qed.

Lemma createPayment_null_returnUrl_witness :
  (get_prop (JObj [("name", JStr "T"); ("payType", JStr "wechat"); ("price", JStr "1");
                   ("orderId", JStr "o"); ("orderUid", JStr "u"); ("notifyUrl", JStr "https://n");
                   ("returnUrl", JNull)]) "returnUrl" = JNull) /\
  exists res,
  createPayment (fun _ => NetOk JNull) demo_client
    (JObj [("name", JStr "T"); ("payType", JStr "wechat"); ("price", JStr "1");
           ("orderId", JStr "o"); ("orderUid", JStr "u"); ("notifyUrl", JStr "https://n");
           ("returnUrl", JNull)]) [] =
  (res,
   [] ++ [mk_request POST ("https://bufpay.com/api/pay/" ++ "app" ++ "?format=json")
            [("name", "T"); ("pay_type", "wechat"); ("price", "1"); ("order_id", "o");
             ("order_uid", "u"); ("notify_url", "https://n"); ("return_url", "null");
             ("feedback_url", "");
             ("sign", md5_hex_upper ("T" ++ "wechat" ++ "1" ++ "o" ++ "u" ++ "https://n"
                                     ++ "" ++ "" ++ "s3cr3t"))]])%list.
Proof.
  split; [reflexivity |].
  exact (createPayment_null_returnUrl (fun _ => NetOk JNull) "app" "s3cr3t"
           "T" "wechat" "1" "o" "u" "https://n" ""
           (JObj [("name", JStr "T"); ("payType", JStr "wechat"); ("price", JStr "1");
                  ("orderId", JStr "o"); ("orderUid", JStr "u"); ("notifyUrl", JStr "https://n");
                  ("returnUrl", JNull)]) []
           eq_refl eq_refl eq_refl eq_refl eq_refl eq_refl
           ltac:(discriminate) ltac:(discriminate) ltac:(discriminate) ltac:(discriminate)
           ltac:(discriminate) ltac:(discriminate) eq_refl eq_refl).
Defined.

(** X5: for a request whose six mandatory fields are truthy, any error
    raised by the signing function (a mandatory field, an optional URL or
    the secret whose string conversion throws) escapes [createPayment] as
    it is, not wrapped as "Payment creation failed", and no request is
    issued. *)
Theorem createPayment_signing_error_unwrapped (axios : http_request -> net_outcome)
    (self : BufPay) (args : jsval) (log : list http_request) (e : js_error) :
  args <> JUndefined -> args <> JNull ->
  forallb truthy [get_prop args "name"; get_prop args "payType"; get_prop args "price";
                  get_prop args "orderId"; get_prop args "orderUid";
                  get_prop args "notifyUrl"] = true ->
  createSignature [get_prop args "name"; get_prop args "payType"; get_prop args "price";
                   get_prop args "orderId"; get_prop args "orderUid"; get_prop args "notifyUrl";
                   default_empty (get_prop args "returnUrl");
                   default_empty (get_prop args "feedbackUrl"); appSecret self] = Throw e ->
  createPayment axios self args log = (Throw e, log).
Proof.
  intros H1 H2 Hvalid Hs.
  rewrite (createPayment_unfold axios self args H1 H2). cbv zeta.
  rewrite (all_truthy6 _ _ _ _ _ _ Hvalid).
  unfold bind at 1, lift at 1. rewrite Hs. reflexivity.
Qed.

Lemma createPayment_signing_error_unwrapped_witness :
  createPayment (fun _ => NetOk JNull) demo_client
    (JObj [("name", JStr "T"); ("payType", JObj [("toString", JStr "x")]);
           ("price", JStr "1"); ("orderId", JStr "o"); ("orderUid", JStr "u");
           ("notifyUrl", JStr "https://n")]) []
  = (Throw cannot_convert, []).
Proof.
  apply createPayment_signing_error_unwrapped; first [discriminate | reflexivity].
Defined.

(** X6: the fields are concatenated without a delimiter, so for a string
    secret and non-empty string fields a, o, u, p, pp, moving [x] from the
    end of aoid to the start of order_id leaves the verdict of
    [verifyNotification] unchanged: a signature for ("A1", "O1", ...) is
    also accepted for ("A", "1O1", ...). *)
Theorem verify_boundary_shift (id : jsval) (secret a x o u p pp : string) (sign : jsval) :
  a <> "" -> o <> "" -> u <> "" -> p <> "" -> pp <> "" ->
  verifyNotification (new_BufPay id (JStr secret))
    (notification (JStr (a ++ x)) (JStr o) (JStr u) (JStr p) (JStr pp) sign)
  = verifyNotification (new_BufPay id (JStr secret))
      (notification (JStr a) (JStr (x ++ o)) (JStr u) (JStr p) (JStr pp) sign).
Proof.
  intros Ha Ho Hu Hp Hpp.
  assert (Hax : a ++ x <> "") by (destruct a; [contradiction | discriminate]).
  assert (Hxo : x ++ o <> "").
  { destruct x; cbn; [exact Ho | discriminate]. }
  rewrite (verify_strings id secret (a ++ x) o u p pp sign Hax Ho Hu Hp Hpp).
  rewrite (verify_strings id secret a (x ++ o) u p pp sign Ha Hxo Hu Hp Hpp).
  now rewrite !string_app_assoc.
Qed.

Lemma verify_boundary_shift_witness :
  ("A" <> "" /\ "O1" <> "") /\
  verifyNotification demo_client
    (notification (JStr ("A" ++ "1")) (JStr "O1") (JStr "U1") (JStr "10.00") (JStr "9.50")
       (JStr "74B9C32E2193536FABA89038613BA834"))
  = verifyNotification demo_client
      (notification (JStr "A") (JStr ("1" ++ "O1")) (JStr "U1") (JStr "10.00") (JStr "9.50")
         (JStr "74B9C32E2193536FABA89038613BA834")).
Proof.
  split; [split; discriminate |].
  apply (verify_boundary_shift (JStr "app") "s3cr3t" "A" "1" "O1" "U1" "10.00" "9.50");
    discriminate.
Defined.

Lemma truthy6_of_orb (a b c d e f : jsval) :
  (negb (truthy a) || negb (truthy b) || negb (truthy c)
   || negb (truthy d) || negb (truthy e) || negb (truthy f)) = false ->
  forallb truthy [a; b; c; d; e; f] = true.
Proof.
  cbn [forallb]. destruct (truthy a), (truthy b), (truthy c), (truthy d), (truthy e), (truthy f);
    cbn; congruence.
Qed.

(** X7: [verifyNotification] accepts only an object payload whose six
    fields are truthy and whose [sign] is a string equal to the signature
    recomputed over the five fields and the secret (a number or any other
    non-string sign is always rejected). *)
Theorem verify_accept_sound (self : BufPay) (params : jsval) :
  verifyNotification self params = Return true ->
  params <> JUndefined /\ params <> JNull /\
  forallb truthy (map (get_prop params) notification_fields) = true /\
  exists s, get_prop params "sign" = JStr s /\
    createSignature [get_prop params "aoid"; get_prop params "order_id";
                     get_prop params "order_uid"; get_prop params "price";
                     get_prop params "pay_price"; appSecret self] = Return s.
Proof.
  intro H.
  assert (H1 : params <> JUndefined) by (intros ->; discriminate H).
  assert (H2 : params <> JNull) by (intros ->; discriminate H).
  split; [exact H1 | split; [exact H2 |]].
  rewrite (verify_unfold self params H1 H2) in H. cbv zeta in H.
  destruct (_ || _) eqn:Ho in H; [discriminate H |].
  split; [exact (truthy6_of_orb _ _ _ _ _ _ Ho) |].
  destruct (createSignature _) as [e|err] eqn:Hs in H; cbn [res_bind] in H; [| discriminate H].
  apply Return_inj in H.
  destruct (get_prop params "sign") as [| | | |t| |]; cbn in H; try discriminate H.
  apply String.eqb_eq in H. subst t. exists e. split; [reflexivity | exact Hs].
Qed.

Lemma verify_accept_sound_witness :
  verifyNotification demo_client demo_body = Return true /\
  exists s, get_prop demo_body "sign" = JStr s /\
    createSignature [get_prop demo_body "aoid"; get_prop demo_body "order_id";
                     get_prop demo_body "order_uid"; get_prop demo_body "price";
                     get_prop demo_body "pay_price"; appSecret demo_client] = Return s.
Proof.
  assert (H : verifyNotification demo_client demo_body = Return true) by (vm_compute; reflexivity).
  split; [exact H |].
  exact (proj2 (proj2 (proj2 (verify_accept_sound demo_client demo_body H)))).
Defined.

(** X8: the notification route calls the callback at most once, only with
    the body itself and only after a successful verification; its only
    responses are 400 "Invalid signature" and 200 "OK" (otherwise it
    throws). *)
Theorem notify_handler_invariant (bufpay : BufPay)
    (onPaymentSuccess : option (jsval -> js_result jsval)) (body : jsval) :
  (snd (notify_handler bufpay onPaymentSuccess body) = [] \/
   (snd (notify_handler bufpay onPaymentSuccess body) = [body] /\
    verifyNotification bufpay body = Return true)) /\
  (fst (notify_handler bufpay onPaymentSuccess body) = Respond 400 "Invalid signature" \/
   fst (notify_handler bufpay onPaymentSuccess body) = Respond 200 "OK" \/
   exists e, fst (notify_handler bufpay onPaymentSuccess body) = HandlerThrow e).
Proof.
  unfold notify_handler.
  destruct (verifyNotification bufpay body) as [[|]|e] eqn:Hv.
  - destruct onPaymentSuccess as [f|]; [destruct (f body) |]; cbn;
      split; auto; right; right; eauto.
  - cbn. auto.
  - cbn. split; [auto | right; right; eauto].
Qed.

(** X9: a body other than [null] and [undefined] with one of the six
    fields missing or falsy (an array, a non-null primitive, or an object
    with a missing or empty field) is answered 400 "Invalid signature"
    without calling the callback. *)
Theorem notify_handler_rejects_incomplete (bufpay : BufPay)
    (onPaymentSuccess : option (jsval -> js_result jsval)) (body : jsval) (k : string) :
  body <> JUndefined -> body <> JNull ->
  In k notification_fields -> truthy (get_prop body k) = false ->
  notify_handler bufpay onPaymentSuccess body = (Respond 400 "Invalid signature", []).
Proof.
  intros H1 H2 Hk Hf. unfold notify_handler.
  now rewrite (verify_falsy_field bufpay body k H1 H2 Hk Hf).
Qed.

Lemma notify_handler_rejects_incomplete_witness :
  notify_handler demo_client (Some (fun _ => Return JUndefined)) (JArr [demo_body])
  = (Respond 400 "Invalid signature", []).
Proof.
  apply (notify_handler_rejects_incomplete _ _ _ "sign");
    first [discriminate | reflexivity | (right; right; right; right; right; left; reflexivity)].
Defined.

(** X10: omitting returnUrl (or feedbackUrl) has the same effect on
    [createPayment] as passing "" for it: same result and same requests. *)
Theorem createPayment_omitted_is_empty (axios : http_request -> net_outcome) (self : BufPay)
    (ps : list (string * jsval)) (log : list http_request) :
  (prop_lookup "returnUrl" ps = JUndefined ->
   createPayment axios self (JObj (("returnUrl", JStr "") :: ps)) log
   = createPayment axios self (JObj ps) log) /\
  (prop_lookup "feedbackUrl" ps = JUndefined ->
   createPayment axios self (JObj (("feedbackUrl", JStr "") :: ps)) log
   = createPayment axios self (JObj ps) log).
Proof.
  split; intro H;
    rewrite !createPayment_unfold by discriminate; cbv zeta;
    cbn [get_prop prop_lookup String.eqb Ascii.eqb Bool.eqb andb];
    rewrite H; reflexivity.
Qed.

Lemma createPayment_omitted_is_empty_witness :
  prop_lookup "feedbackUrl" [("name", JStr "Test"); ("payType", JStr "alipay"); ("price", JStr "100.00");
        ("orderId", JStr "order123"); ("orderUid", JStr "user123");
        ("notifyUrl", JStr "https://x.com/n"); ("returnUrl", JStr "https://x.com/ok")] = JUndefined /\
  createPayment (fun _ => NetOk JNull) demo_client
    (JObj (("feedbackUrl", JStr "") ::
           [("name", JStr "Test"); ("payType", JStr "alipay"); ("price", JStr "100.00");
            ("orderId", JStr "order123"); ("orderUid", JStr "user123");
            ("notifyUrl", JStr "https://x.com/n"); ("returnUrl", JStr "https://x.com/ok")])) []
  = createPayment (fun _ => NetOk JNull) demo_client demo_payment [].
Proof.
  split; [reflexivity |].
  apply (proj2 (createPayment_omitted_is_empty (fun _ => NetOk JNull) demo_client
                  [("name", JStr "Test"); ("payType", JStr "alipay"); ("price", JStr "100.00");
                   ("orderId", JStr "order123"); ("orderUid", JStr "user123");
                   ("notifyUrl", JStr "https://x.com/n"); ("returnUrl", JStr "https://x.com/ok")] [])).
  reflexivity.
Defined.
